(** * A shallow embedding of the chat backend [backend/app.py]

    The Flask application keeps three pieces of persisted state under the
    directory [data]: the table [users.csv], the table [messages.csv] and
    the directory [uploads].  Every handler reads a table with
    [pd.read_csv], possibly extends it, and writes it back with [to_csv].

    Modelling conventions, used throughout:
    - a Python [str] is a Rocq [string] holding its UTF-8 bytes, a lone
      surrogate (which a JSON escape can produce) written as its three
      bytes; [str.encode] raises on such a string;
    - a cell of a DataFrame is a [cell]: a text, a missing value, or a
      number or boolean; what [read_csv] makes of a file, whether [to_csv]
      and [file.save] return or raise, and the size of a CSV file are not
      the repository's code: they are the fields of a [library], and the
      theorems hold for every library;
    - a CSV file is described by the DataFrame that [to_csv] was given and
      by whether the call ran to its end;
    - a call that raises inside a handler takes the handler to its
      [except Exception] branch, status 500, with what was written before;
      [clear_data] and the startup code, which write no request data, are
      taken to go through;
    - the clock ([datetime.now()]) is an input of the handlers that use it;
    - JSON fields are strings or [null]. *)

From Stdlib Require Import ZArith Ascii String.
From stdpp Require Import gmap strings list fin_maps finite.

(** ** SHA-256, as [hashlib.sha256(...).hexdigest()] computes it (FIPS 180-4) *)

Module Sha256.

Local Open Scope Z_scope.

Definition wrap32 (x : Z) : Z := x mod 2 ^ 32.
Definition add32 (x y : Z) : Z := wrap32 (x + y).
Definition rotr (n x : Z) : Z :=
  Z.lor (Z.shiftr x n) (wrap32 (Z.shiftl x (32 - n))).
Definition not32 (x : Z) : Z := Z.lxor x 0xffffffff.

Definition Ch (x y z : Z) : Z := Z.lxor (Z.land x y) (Z.land (not32 x) z).
Definition Maj (x y z : Z) : Z :=
  Z.lxor (Z.lxor (Z.land x y) (Z.land x z)) (Z.land y z).
Definition Sigma0 (x : Z) : Z := Z.lxor (Z.lxor (rotr 2 x) (rotr 13 x)) (rotr 22 x).
Definition Sigma1 (x : Z) : Z := Z.lxor (Z.lxor (rotr 6 x) (rotr 11 x)) (rotr 25 x).
Definition sigma0 (x : Z) : Z := Z.lxor (Z.lxor (rotr 7 x) (rotr 18 x)) (Z.shiftr x 3).
Definition sigma1 (x : Z) : Z := Z.lxor (Z.lxor (rotr 17 x) (rotr 19 x)) (Z.shiftr x 10).

(** The round constants are the first 32 bits of the fractional parts of
    the cube roots of the first 64 primes; the initial hash value, of the
    square roots of the first 8. *)
Definition primes : list Z :=
  [ 2; 3; 5; 7; 11; 13; 17; 19; 23; 29; 31; 37; 41; 43; 47; 53;
    59; 61; 67; 71; 73; 79; 83; 89; 97; 101; 103; 107; 109; 113; 127; 131;
    137; 139; 149; 151; 157; 163; 167; 173; 179; 181; 191; 193; 197; 199; 211; 223;
    227; 229; 233; 239; 241; 251; 257; 263; 269; 271; 277; 281; 283; 293; 307; 311 ].

(** The integer cube root of [n < 2 ^ 108], one bit at a time. *)
Definition cube_root (n : Z) : Z :=
  fold_left (fun r bit => let r' := r + 2 ^ bit in if r' ^ 3 <=? n then r' else r)
            (map Z.of_nat (rev (seq 0 36))) 0.

Definition K : list Z := map (fun p => wrap32 (cube_root (p * 2 ^ 96))) primes.

Definition H0 : list Z := map (fun p => wrap32 (Z.sqrt (p * 2 ^ 64))) (take 8 primes).

(** Big-endian encodings. *)
Fixpoint be_bytes (n : nat) (x : Z) : list Z :=
  match n with
  | O => []
  | S n' => Z.land (Z.shiftr x (8 * Z.of_nat n')) 0xff :: be_bytes n' x
  end.

Definition be_word (bs : list Z) : Z :=
  fold_left (fun acc b => Z.lor (Z.shiftl acc 8) b) bs 0.

(** Padding: a [1] bit, zeros up to 56 modulo 64, the bit length on 8 bytes. *)
Definition pad (msg : list Z) : list Z :=
  let n := Z.of_nat (length msg) in
  msg ++ [0x80] ++ repeat 0 (Z.to_nat ((55 - n) mod 64)) ++ be_bytes 8 (8 * n).

Fixpoint chunks (fuel k : nat) (l : list Z) : list (list Z) :=
  match fuel, l with
  | O, _ | _, [] => []
  | S fuel', _ => take k l :: chunks fuel' k (drop k l)
  end.

(** The message schedule: [w] holds W_0 .. W_(i-1), extended by [n] words. *)
Fixpoint schedule (n : nat) (w : list Z) : list Z :=
  match n with
  | O => w
  | S n' =>
    let i := length w in
    let W (k : nat) := nth (i - k) w 0 in
    schedule n'
      (w ++ [add32 (add32 (sigma1 (W 2%nat)) (W 7%nat))
                   (add32 (sigma0 (W 15%nat)) (W 16%nat))])
  end.

Definition round (v : list Z) (kw : Z * Z) : list Z :=
  match v with
  | [a; b; c; d; e; f; g; h] =>
    let t1 := add32 (add32 (add32 h (Sigma1 e)) (add32 (Ch e f g) (fst kw))) (snd kw) in
    let t2 := add32 (Sigma0 a) (Maj a b c) in
    [add32 t1 t2; a; b; c; add32 d t1; e; f; g]
  | _ => v
  end.

Definition compress (h : list Z) (block : list Z) : list Z :=
  let w := schedule 48 (map be_word (chunks 16 4 block)) in
  let v := fold_left round (combine K w) h in
  map (fun p => add32 (fst p) (snd p)) (combine h v).

Definition digest (msg : list Z) : list Z :=
  let m := pad msg in
  fold_left compress (chunks (length m) 64 m) H0.

Definition hex_digit (d : Z) : ascii :=
  nth (Z.to_nat d) (list_ascii_of_string "0123456789abcdef") "0"%char.

Definition hex_byte (b : Z) : list ascii :=
  [hex_digit (Z.shiftr b 4); hex_digit (Z.land b 0xf)].

Definition bytes_of_string (s : string) : list Z :=
  map (fun c => Z.of_N (N_of_ascii c)) (list_ascii_of_string s).

Definition hexdigest (s : string) : string :=
  string_of_list_ascii
    (flat_map hex_byte (flat_map (be_bytes 4) (digest (bytes_of_string s)))).

End Sha256.


(** ** Python built-ins used by the handlers *)

(** [c.lower()] on one byte: only A-Z change.  The byte of a non-ASCII
    character is left alone; no such character lowers to a letter of an
    allowed extension, so the test of [allowed_file] is not affected. *)
Definition lower_char (c : ascii) : ascii :=
  let n := nat_of_ascii c in
  if (65 <=? n) && (n <=? 90) then ascii_of_nat (n + 32) else c.

Fixpoint lower (s : string) : string :=
  match s with
  | EmptyString => EmptyString
  | String c s' => String (lower_char c) (lower s')
  end.

(** [c in s] for a one-character [c]. *)
Fixpoint contains (c : ascii) (s : string) : bool :=
  match s with
  | EmptyString => false
  | String c' s' => if Ascii.eqb c' c then true else contains c s'
  end.

(** The cut of [s] at the last [sep], when there is one. *)
Fixpoint cut_last (sep : ascii) (s : string) : option (string * string) :=
  match s with
  | EmptyString => None
  | String c s' =>
    match cut_last sep s' with
    | Some (before, after) => Some (String c before, after)
    | None => if Ascii.eqb c sep then Some (EmptyString, s') else None
    end
  end.

(** [s.rsplit(sep, 1)]. *)
Definition rsplit (sep : ascii) (s : string) : list string :=
  match cut_last sep s with
  | Some (before, after) => [before; after]
  | None => [s]
  end.

(** A JSON value of a request body, and Python's truth test on
    [data.get(key)]: a missing key gives [None]. *)
Inductive jvalue := JNull | JStr (s : string).

Definition truthy (v : option jvalue) : bool :=
  match v with
  | Some (JStr s) => negb (String.eqb s EmptyString)
  | _ => false
  end.

Definition str_value (v : option jvalue) : string :=
  match v with
  | Some (JStr s) => s
  | _ => EmptyString
  end.

Definition truthy_str (v : option string) : bool :=
  match v with
  | Some s => negb (String.eqb s EmptyString)
  | None => false
  end.

(** [s.encode()] succeeds unless [s] holds a lone surrogate: the byte 237
    followed by a byte from 160 on, which no character has. *)
Fixpoint encodable (s : string) : bool :=
  match s with
  | EmptyString => true
  | String c s' =>
    match s' with
    | EmptyString => true
    | String c' _ =>
      if (nat_of_ascii c =? 237) && (160 <=? nat_of_ascii c') then false else encodable s'
    end
  end.

(** ** Module-level constants *)

Definition ALLOWED_EXTENSIONS : gset string := {[ "png"; "jpg"; "jpeg"; "gif" ]}.
Definition MAX_DATA_SIZE : Z := 400 * 1024 * 1024.

Definition allowed_file (filename : string) : bool :=
  contains "." filename &&
  match rsplit "." filename !! 1 with
  | Some ext => bool_decide (lower ext ∈ ALLOWED_EXTENSIONS)
  | None => false
  end.

(** [None] when [password.encode()] raises. *)
Definition hash_password (password : string) : option string :=
  if encodable password then Some (Sha256.hexdigest password) else None.

Arguments Sha256.hexdigest : simpl never.
Arguments hash_password : simpl never.

(** ** Persisted state *)

(** A cell of a DataFrame. *)
Inductive cell :=
| CStr (s : string)         (* a str *)
| CNaN                      (* a missing value: NaN, or None among objects *)
| CNum (written : string).  (* an int64, float64 or bool, by the text to_csv writes for it *)

(** [cell == s] for a str [s]: a missing value or a number equals no str. *)
Definition cell_is (s : string) (c : cell) : bool :=
  match c with
  | CStr s' => String.eqb s' s
  | _ => false
  end.

Record user_row := UserRow { username_cell : cell; password_hash_cell : cell }.

Record message_row := MessageRow {
  timestamp_cell : cell;
  sender_cell : cell;
  message_cell : cell;
  type_cell : cell
}.

(** A CSV file: the DataFrame [to_csv] was called on, and whether the call
    ran to its end or raised part-way. *)
Inductive csv_file (row : Type) : Type :=
| Written (frame : list row)
| Torn (frame : list row).

Arguments Written {row} frame.
Arguments Torn {row} frame.

(** [uploads] maps the name of each file of [data/uploads] to its size in
    bytes.  The handlers create regular files only (line 159), so every
    entry of the directory is one. *)
Record state := State {
  users : csv_file user_row;
  messages : csv_file message_row;
  uploads : gmap string Z
}.

(** The state the startup code (lines 13-30) makes on an empty disk. *)
Definition empty_state : state := State (Written []) (Written []) ∅.

(** ** Responses *)

Record message_record := MessageRecord {
  timestamp : cell;
  username : cell;
  message : cell;
  type : cell
}.

Inductive body :=
| Error (error : string)                 (* {'error': error} *)
| Success (field value : string)         (* {'status': 'success', field: value} *)
| Records (records : list message_record)
| FileBody (size : Z)                      (* send_file *)
| Raised.                                  (* {'error': str(e)} of an except branch *)

Definition response : Type := body * Z.

Definition jsonify (b : body) : response := (b, 200%Z).

(** The body of a successful registration. *)
Definition registered : response :=
  jsonify (Success "message" "User registered successfully").

(** ** Requests *)

Record FileStorage := { filename : string; content_length : Z }.

Record upload_form := { files_file : option FileStorage; form_username : option string }.

(** The six routes, with the clock readings of the handlers that take some. *)
Inductive request :=
| POST_register (data : gmap string jvalue)
| POST_login (data : gmap string jvalue)
| POST_upload (now_stamp now_iso : string) (form : upload_form)
| GET_images (filename : string)
| GET_messages
| POST_messages (now_iso : string) (data : gmap string jvalue).

(** The rows the handlers append.  [data.get('type', 'text')] is ['text']
    for a missing key and [None] for [null]. *)
Definition type_of_request (v : option jvalue) : cell :=
  match v with
  | None => CStr "text"
  | Some JNull => CNaN
  | Some (JStr s) => CStr s
  end.

Definition text_row (now_iso : string) (data : gmap string jvalue) : message_row :=
  MessageRow (CStr now_iso) (CStr (str_value (data !! "username")))
             (CStr (str_value (data !! "message"))) (type_of_request (data !! "type")).

Definition image_row (now_iso username filename : string) : message_row :=
  MessageRow (CStr now_iso) (CStr username) (CStr filename) (CStr "image").

(** ** The library

    What the handlers take from pandas, werkzeug and the file system. *)

(** [file.save(filepath)]: it returns, or it raises and leaves nothing or
    a part of the file under that name. *)
Inductive saved := Saved | SaveRaised (leftover : option Z).

Record library := Library {
  secure_filename : string → string;
  (* pd.read_csv(USERS_FILE) with its two columns; None when the call raises *)
  read_users : csv_file user_row → option (list user_row);
  (* pd.read_csv(MESSAGES_FILE) with its four columns *)
  read_messages : csv_file message_row → option (list message_row);
  (* whether to_csv returns *)
  users_to_csv : list user_row → bool;
  messages_to_csv : list message_row → bool;
  (* os.path.getsize *)
  users_csv_size : csv_file user_row → Z;
  messages_csv_size : csv_file message_row → Z;
  file_save : string → Z → saved
}.

(** ** The error taxonomy of the specification

    Every error body of the handlers carries one of ten fixed texts; the
    taxonomy groups them.  The texts that report an absent body, field or
    file are [MissingField]. *)

Inductive outcome :=
| Succeeded
| MissingField
| DuplicateUsername
| InvalidCredentials
| UnknownUser
| DisallowedExtension
| InternalFailure.

Definition outcome_of (r : response) : outcome :=
  match r.1 with
  | Error msg =>
    if String.eqb msg "Username already exists" then DuplicateUsername
    else if String.eqb msg "Invalid username or password" then InvalidCredentials
    else if String.eqb msg "User not found" then UnknownUser
    else if String.eqb msg "File type not allowed" then DisallowedExtension
    else MissingField
  | Raised => InternalFailure
  | _ => Succeeded
  end.

(** The status of each outcome as the specification words it: unknown
    users are invalid client data. *)
Definition status_in_spec (o : outcome) : Z :=
  match o with
  | Succeeded => 200
  | MissingField | DuplicateUsername | DisallowedExtension | UnknownUser => 400
  | InvalidCredentials => 401
  | InternalFailure => 500
  end.

(** The status of each outcome as the handlers return it. *)
Definition status_in_code (o : outcome) : Z :=
  match o with
  | Succeeded => 200
  | MissingField | DuplicateUsername | DisallowedExtension => 400
  | InvalidCredentials | UnknownUser => 401
  | InternalFailure => 500
  end.

(** The extension of a filename, in the words of the specification: the
    text after its last dot. *)
Definition has_extension (filename ext : string) : Prop :=
  ∃ stem, filename = stem +:+ "." +:+ ext ∧ contains "." ext = false.

Definition extension_allowed (filename : string) : Prop :=
  ∃ ext, has_extension filename ext ∧ lower ext ∈ ALLOWED_EXTENSIONS.

(** ** A sample library, for running the handlers on concrete requests

    A stand-in for the libraries on the sample requests, not the libraries
    themselves.  [keep_filename_chars] is the last step of werkzeug's
    [secure_filename].  A CSV file is read back column by column, as
    pandas infers types: a cell whose text is one of pandas' missing-value
    texts is missing, and the other cells of a column are numbers when all
    of them are made of digits (floats when a cell of the column is
    missing), texts otherwise.  [to_csv] raises at the first row with a
    text it cannot encode, and the rows before it are on disk.  A file name
    of more than 255 bytes is refused by the file system. *)

Definition filename_char (c : ascii) : bool :=
  let n := nat_of_ascii c in
  ((48 <=? n) && (n <=? 57)) || ((65 <=? n) && (n <=? 90)) || ((97 <=? n) && (n <=? 122))
  || (n =? 95) || (n =? 46) || (n =? 45).

Fixpoint keep_filename_chars (s : string) : string :=
  match s with
  | EmptyString => EmptyString
  | String c s' =>
    if filename_char c then String c (keep_filename_chars s') else keep_filename_chars s'
  end.

Definition cell_text (c : cell) : string :=
  match c with
  | CStr s | CNum s => s
  | CNaN => EmptyString
  end.

Definition NA_VALUES : list string :=
  [ EmptyString; "#N/A"; "#N/A N/A"; "#NA"; "-1.#IND"; "-1.#QNAN"; "-NaN"; "-nan";
    "1.#IND"; "1.#QNAN"; "<NA>"; "N/A"; "NA"; "NULL"; "NaN"; "None"; "n/a"; "nan"; "null" ].

Definition missing_text (s : string) : bool := existsb (String.eqb s) NA_VALUES.

Fixpoint all_digits (s : string) : bool :=
  match s with
  | EmptyString => true
  | String c s' => (48 <=? nat_of_ascii c) && (nat_of_ascii c <=? 57) && all_digits s'
  end.

Definition number_text (s : string) : bool :=
  negb (String.eqb s EmptyString) && all_digits s.

(** The decimal text of the number with the digits [s]. *)
Fixpoint strip_zeros (s : string) : string :=
  match s with
  | String "0" (String _ _ as s') => strip_zeros s'
  | _ => s
  end.

Definition infer_column (texts : list string) : list cell :=
  let present := List.filter (λ t, negb (missing_text t)) texts in
  let numbers := forallb number_text present in
  let floats := existsb missing_text texts in
  map (λ t, if missing_text t then CNaN
            else if numbers
                 then CNum (if floats then strip_zeros t +:+ ".0" else strip_zeros t)
                 else CStr t) texts.

Definition user_texts (row : user_row) : list string :=
  [cell_text (username_cell row); cell_text (password_hash_cell row)].

Definition message_texts (row : message_row) : list string :=
  [cell_text (timestamp_cell row); cell_text (sender_cell row);
   cell_text (message_cell row); cell_text (type_cell row)].

Definition reread_users (frame : list user_row) : list user_row :=
  zip_with UserRow
    (infer_column (map (λ row, cell_text (username_cell row)) frame))
    (infer_column (map (λ row, cell_text (password_hash_cell row)) frame)).

Definition reread_messages (frame : list message_row) : list message_row :=
  zip_with (λ ab cd, MessageRow ab.1 ab.2 cd.1 cd.2)
    (zip (infer_column (map (λ row, cell_text (timestamp_cell row)) frame))
         (infer_column (map (λ row, cell_text (sender_cell row)) frame)))
    (zip (infer_column (map (λ row, cell_text (message_cell row)) frame))
         (infer_column (map (λ row, cell_text (type_cell row)) frame))).

(** The rows on disk: all of a written frame, those before the first row
    that could not be encoded of a torn one. *)
Fixpoint rows_before {row : Type} (texts : row → list string) (frame : list row) : list row :=
  match frame with
  | [] => []
  | r :: frame' => if forallb encodable (texts r) then r :: rows_before texts frame' else []
  end.

Definition on_disk {row : Type} (texts : row → list string) (file : csv_file row) : list row :=
  match file with
  | Written frame => frame
  | Torn frame => rows_before texts frame
  end.

(** One line of CSV: the cells, a comma between two of them, a newline. *)
Definition csv_line_size (cells : list string) : Z :=
  Z.of_nat (sum_list (String.length <$> cells) + length cells).

Definition csv_size {row : Type} (header : list string) (texts : row → list string)
    (file : csv_file row) : Z :=
  (csv_line_size header
   + foldr (λ r acc, csv_line_size (texts r) + acc) 0 (on_disk texts file))%Z.

Definition sample_library : library :=
  {| secure_filename := keep_filename_chars;
     read_users := λ file, Some (reread_users (on_disk user_texts file));
     read_messages := λ file, Some (reread_messages (on_disk message_texts file));
     users_to_csv := forallb (λ row, forallb encodable (user_texts row));
     messages_to_csv := forallb (λ row, forallb encodable (message_texts row));
     users_csv_size := csv_size ["username"; "password_hash"] user_texts;
     messages_csv_size := csv_size ["timestamp"; "username"; "message"; "type"] message_texts;
     file_save := λ name size,
       if (255 <? String.length name)%nat then SaveRaised None else Saved |}.

(** ** Sample requests and states *)

Definition credentials (username password : string) : gmap string jvalue :=
  {[ "username" := JStr username; "password" := JStr password ]}.

Definition text_message (username message : string) : gmap string jvalue :=
  {[ "username" := JStr username; "message" := JStr message ]}.

(** A message with an explicit type. *)
Definition typed_message (username message type_ : string) : gmap string jvalue :=
  <[ "type" := JStr type_ ]> (text_message username message).

Definition upload_by (username name : string) (size : Z) : upload_form :=
  {| files_file := Some {| filename := name; content_length := size |};
     form_username := Some username |}.

(** Alice says hi and uploads a picture of 1000 bytes. *)
Definition session : list request :=
  [ POST_messages "2024-05-01T10:00:00.000000" (text_message "alice" "hi");
    POST_upload "1714557600.5" "2024-05-01T10:00:01.000000" (upload_by "alice" "cat.png" 1000) ].

Definition big_upload (size : Z) : request :=
  POST_upload "1714557700.25" "2024-05-01T10:01:40.000000" (upload_by "alice" "big.png" size).

(** The state after alice has registered and gone through [session]. *)
Definition alice_state : state :=
  {| users := Written [UserRow (CStr "alice") (CStr (Sha256.hexdigest "secret"))];
     messages :=
       Written
         [ MessageRow (CStr "2024-05-01T10:00:00.000000") (CStr "alice") (CStr "hi") (CStr "text");
           image_row "2024-05-01T10:00:01.000000" "alice" "1714557600.5_cat.png" ];
     uploads := {[ "1714557600.5_cat.png" := 1000%Z ]} |}.

(** The state after [big_upload size] on top of that. *)
Definition big_state (size : Z) : state :=
  {| users := users alice_state;
     messages :=
       Written
         [ MessageRow (CStr "2024-05-01T10:00:00.000000") (CStr "alice") (CStr "hi") (CStr "text");
           image_row "2024-05-01T10:00:01.000000" "alice" "1714557600.5_cat.png";
           image_row "2024-05-01T10:01:40.000000" "alice" "1714557700.25_big.png" ];
     uploads := <[ "1714557700.25_big.png" := size ]> (uploads alice_state) |}.

(** With an upload of 400 MiB the ceiling is passed. *)
Definition full_state : state := big_state (400 * 1024 * 1024).

(** A state of 400 * 1024 * 1024 bytes in all: without the large file it
    has 1288 bytes. *)
Definition brim_state : state := big_state (400 * 1024 * 1024 - 1288).

(** A filename of 304 bytes with an allowed extension. *)
Definition long_name : string :=
  string_of_list_ascii (repeat "a"%char 300) +:+ ".png".

(** The str that the JSON text [\ud800] stands for. *)
Definition lone_surrogate : string :=
  String (ascii_of_nat 237) (String (ascii_of_nat 160) (String (ascii_of_nat 128) EmptyString)).

(** ** The handlers *)

Section Backend.

Variable lib : library.

Definition get_data_size (st : state) : Z :=
  (users_csv_size lib (users st) + messages_csv_size lib (messages st)
   + map_fold (λ _ size total_size, total_size + size) 0 (uploads st))%Z.

Definition listdir (folder : gmap string Z) : list string := (map_to_list folder).*1.

(** The loop of lines 57-63: [os.path.isfile] holds of the names still in
    the directory, and [os.unlink] removes the name. *)
Definition unlink_all (folder : gmap string Z) (names : list string) : gmap string Z :=
  foldl (λ folder filename,
           if bool_decide (is_Some (folder !! filename))
           then delete filename folder else folder)
        folder names.

Definition clear_data (st : state) : bool * state :=
  (true,
   {| users := users st;
      messages := Written [];
      uploads := unlink_all (uploads st) (listdir (uploads st)) |}).

Definition check_and_clear_data (st : state) : state :=
  let current_size := get_data_size st in
  if (current_size >? MAX_DATA_SIZE)%Z then (clear_data st).2 else st.

(** The [except Exception] branch of a handler. *)
Definition raised (st : state) : response * state := ((Raised, 500%Z), st).

(** [username in users['username'].values] *)
Definition username_in (username : string) (table : list user_row) : bool :=
  existsb (λ row, cell_is username (username_cell row)) table.

Definition register (data : gmap string jvalue) (st : state) : response * state :=
  if bool_decide (data = ∅) then ((Error "No JSON data received", 400%Z), st) else
  let username := data !! "username" in
  let password := data !! "password" in
  if negb (truthy username) || negb (truthy password) then
    ((Error "Username and password are required", 400%Z), st)
  else
    match read_users lib (users st) with
    | None => raised st
    | Some table =>
      if username_in (str_value username) table then
        ((Error "Username already exists", 400%Z), st)
      else
        match hash_password (str_value password) with
        | None => raised st
        | Some password_hash =>
          let new_user := UserRow (CStr (str_value username)) (CStr password_hash) in
          let frame := table ++ [new_user] in
          if users_to_csv lib frame then
            (registered,
             {| users := Written frame; messages := messages st; uploads := uploads st |})
          else
            raised {| users := Torn frame; messages := messages st; uploads := uploads st |}
        end
    end.

Definition login (data : gmap string jvalue) (st : state) : response * state :=
  if bool_decide (data = ∅) then ((Error "No JSON data received", 400%Z), st) else
  let username := data !! "username" in
  let password := data !! "password" in
  if negb (truthy username) || negb (truthy password) then
    ((Error "Username and password are required", 400%Z), st)
  else
    match read_users lib (users st) with
    | None => raised st
    | Some table =>
      let user :=
        List.filter (λ row, cell_is (str_value username) (username_cell row)) table in
      match user with
      | [] => ((Error "Invalid username or password", 401%Z), st)
      | row :: _ =>
        match hash_password (str_value password) with
        | None => raised st
        | Some password_hash =>
          if negb (cell_is password_hash (password_hash_cell row))
          then ((Error "Invalid username or password", 401%Z), st)
          else (jsonify (Success "username" (str_value username)), st)
        end
      end
    end.

(** Lines 162-171 and 229-231: the log is read, the new row put after its
    rows, and the whole written back. *)
Definition append_message (new_message : message_row) (ok : response) (st : state)
  : response * state :=
  match read_messages lib (messages st) with
  | None => raised st
  | Some log =>
    let frame := log ++ [new_message] in
    if messages_to_csv lib frame then
      (ok, {| users := users st; messages := Written frame; uploads := uploads st |})
    else
      raised {| users := users st; messages := Torn frame; uploads := uploads st |}
  end.

Definition upload_image (now_stamp now_iso : string) (form : upload_form) (st : state)
  : response * state :=
  match files_file form with
  | None => ((Error "No file part", 400%Z), st)
  | Some file =>
    let username := form_username form in
    if negb (truthy_str username) then ((Error "Username is required", 400%Z), st)
    else if String.eqb (filename file) EmptyString then ((Error "No selected file", 400%Z), st)
    else if negb (String.eqb (filename file) EmptyString) && allowed_file (filename file) then
      let st1 := check_and_clear_data st in
      let filename := secure_filename lib (now_stamp +:+ "_" +:+ filename file) in
      match file_save lib filename (content_length file) with
      | SaveRaised leftover =>
        raised {| users := users st1; messages := messages st1;
                  uploads := match leftover with
                             | Some size => <[filename := size]> (uploads st1)
                             | None => uploads st1
                             end |}
      | Saved =>
        append_message (image_row now_iso (default EmptyString username) filename)
          (jsonify (Success "filename" filename))
          {| users := users st1; messages := messages st1;
             uploads := <[filename := content_length file]> (uploads st1) |}
      end
    else ((Error "File type not allowed", 400%Z), st)
  end.

Definition get_image (filename : string) (st : state) : response * state :=
  match uploads st !! filename with
  | Some size => (jsonify (FileBody size), st)
  | None => ((Raised, 500%Z), st)
  end.

(** [messages['type'].fillna('text')] and [to_dict('records')] *)
Definition to_record (row : message_row) : message_record :=
  MessageRecord (timestamp_cell row) (sender_cell row) (message_cell row)
                (match type_cell row with CNaN => CStr "text" | given => given end).

Definition get_messages (st : state) : response * state :=
  match read_messages lib (messages st) with
  | None => raised st
  | Some log => (jsonify (Records (map to_record log)), st)
  end.

Definition send_message (now_iso : string) (data : gmap string jvalue) (st : state)
  : response * state :=
  if bool_decide (data = ∅) then ((Error "No JSON data received", 400%Z), st) else
  let username := data !! "username" in
  let message := data !! "message" in
  if negb (truthy username) || negb (truthy message) then
    ((Error "Username and message are required", 400%Z), st)
  else
    match read_users lib (users st) with
    | None => raised st
    | Some table =>
      if negb (username_in (str_value username) table) then
        ((Error "User not found", 401%Z), st)
      else
        append_message (text_row now_iso data)
          (jsonify (Success "message" "Message sent successfully"))
          (check_and_clear_data st)
    end.

Definition handle (r : request) (st : state) : response * state :=
  match r with
  | POST_register data => register data st
  | POST_login data => login data st
  | POST_upload now_stamp now_iso form => upload_image now_stamp now_iso form st
  | GET_images filename => get_image filename st
  | GET_messages => get_messages st
  | POST_messages now_iso data => send_message now_iso data st
  end.

(** A run of the server: the state after a sequence of requests. *)
Definition run (rs : list request) (st : state) : state :=
  foldl (λ st r, (handle r st).2) st rs.

(** ** Filenames and their extensions *)

Lemma cut_last_None sep s : cut_last sep s = None ↔ contains sep s = false.
Proof.
  induction s as [|c s IH]; simpl; [done|].
  destruct (cut_last sep s) as [[before after]|].
  - destruct (Ascii.eqb c sep); [done|]. split; [done|].
    intros H. apply IH in H. done.
  - destruct (Ascii.eqb c sep); [done|]. split; [|done].
    intros _. by apply IH.
Qed.

Lemma cut_last_Some sep s before after :
  cut_last sep s = Some (before, after)
  ↔ s = before +:+ String sep after ∧ contains sep after = false.
Proof.
  revert before. induction s as [|c s IH]; intros before; simpl.
  - split; [done|]. intros [H _]. by destruct before.
  - destruct (cut_last sep s) as [[b a]|] eqn:Hcut.
    + split.
      * intros [= <- <-]. destruct (IH b) as [[-> Ha] _]; done.
      * intros [Hs Ha]. destruct before as [|c' before']; simpl in Hs.
        -- injection Hs as -> ->. apply cut_last_None in Ha.
           simpl in Hcut. by rewrite Ha in Hcut.
        -- injection Hs as -> Hs. f_equal.
           assert (Some (b, a) = Some (before', after)) as [= -> ->]; [|done].
           by apply IH.
    + destruct (Ascii.eqb_spec c sep) as [->|Hne].
      * split.
        -- intros [= <- <-]. split; [done|]. by apply cut_last_None.
        -- intros [Hs Ha]. destruct before as [|c' before']; simpl in Hs.
           ++ by injection Hs as ->.
           ++ injection Hs as -> Hs.
              assert (None = Some (before', after)) as [=]. by apply IH.
      * split; [done|]. intros [Hs Ha].
        destruct before as [|c' before']; simpl in Hs.
        -- by injection Hs as -> ->.
        -- injection Hs as -> Hs.
           assert (None = Some (before', after)) as [=]. by apply IH.
Qed.

(** [allowed_file] accepts the filenames whose extension, lowercased, is
    on the allow-list. *)
Lemma allowed_file_spec filename :
  allowed_file filename = true ↔ extension_allowed filename.
Proof.
  unfold allowed_file, rsplit, extension_allowed, has_extension. split.
  - intros [Hdot Hext]%andb_prop.
    destruct (cut_last "." filename) as [[before after]|] eqn:Hcut; simpl in Hext; [|done].
    apply bool_decide_eq_true in Hext. apply cut_last_Some in Hcut as [-> Hafter].
    exists after. split; [|done]. by exists before.
  - intros (ext & (stem & Hname & Hext) & Hin).
    assert (cut_last "." filename = Some (stem, ext)) as Hcut.
    { apply cut_last_Some. done. }
    rewrite Hcut. simpl. apply andb_true_intro. split.
    + destruct (contains "." filename) eqn:Hc; [done|].
      apply cut_last_None in Hc. congruence.
    + by apply bool_decide_eq_true.
Qed.

Lemma allowed_file_dotless filename :
  contains "." filename = false → allowed_file filename = false.
Proof. intros H. unfold allowed_file. by rewrite H. Qed.

Lemma dotless_no_extension filename ext :
  contains "." filename = false → ¬ has_extension filename ext.
Proof.
  intros Hdot (stem & -> & _). revert Hdot.
  induction stem as [|c stem IH]; simpl; [done|].
  destruct (Ascii.eqb c "."); [done|]. done.
Qed.

Lemma allowed_file_nonempty filename :
  allowed_file filename = true → filename ≠ EmptyString.
Proof. intros H ->. done. Qed.

(** ** The retention guard *)

Lemma unlink_all_lookup (names : list string) (folder : gmap string Z) (name : string) :
  unlink_all folder names !! name = if bool_decide (name ∈ names) then None else folder !! name.
Proof.
  revert folder. induction names as [|n names IH]; intros folder; simpl.
  - done.
  - rewrite IH. destruct (decide (name = n)) as [->|Hne].
    + rewrite (bool_decide_eq_true_2 (n ∈ n :: names)); [|by left].
      case_bool_decide; [done|]. case_bool_decide as Hn.
      * apply lookup_delete_eq.
      * by apply eq_None_not_Some.
    + assert (bool_decide (name ∈ n :: names) = bool_decide (name ∈ names)) as ->.
      { apply bool_decide_ext. rewrite elem_of_cons. split; [by intros [?|?]|by right]. }
      case_bool_decide; [done|]. case_bool_decide; [|done].
      by apply lookup_delete_ne.
Qed.

Lemma unlink_all_listdir (folder : gmap string Z) :
  unlink_all folder (listdir folder) = ∅.
Proof.
  apply map_eq. intros name. rewrite unlink_all_lookup, lookup_empty.
  case_bool_decide as Hin; [done|].
  destruct (folder !! name) as [size|] eqn:Hname; [|done].
  exfalso. apply Hin. unfold listdir. apply list_elem_of_fmap.
  exists (name, size). split; [done|]. by apply elem_of_map_to_list.
Qed.

Lemma clear_data_state st :
  clear_data st = (true, {| users := users st; messages := Written []; uploads := ∅ |}).
Proof. unfold clear_data. by rewrite unlink_all_listdir. Qed.

Lemma check_over st :
  (MAX_DATA_SIZE < get_data_size st)%Z →
  check_and_clear_data st = {| users := users st; messages := Written []; uploads := ∅ |}.
Proof.
  intros H. unfold check_and_clear_data.
  destruct (Z.gtb_spec (get_data_size st) MAX_DATA_SIZE) as [_|?]; [|lia].
  by rewrite clear_data_state.
Qed.

Lemma check_within st :
  (get_data_size st ≤ MAX_DATA_SIZE)%Z → check_and_clear_data st = st.
Proof.
  intros H. unfold check_and_clear_data.
  destruct (Z.gtb_spec (get_data_size st) MAX_DATA_SIZE) as [?|_]; [lia|done].
Qed.

Lemma check_users st : users (check_and_clear_data st) = users st.
Proof.
  unfold check_and_clear_data. by destruct (get_data_size st >? MAX_DATA_SIZE)%Z.
Qed.

Lemma check_cases st :
  check_and_clear_data st = st
  ∨ check_and_clear_data st = {| users := users st; messages := Written []; uploads := ∅ |}.
Proof.
  unfold check_and_clear_data. destruct (get_data_size st >? MAX_DATA_SIZE)%Z; [|by left].
  right. by rewrite clear_data_state.
Qed.

(** ** What the handlers read and write *)

Lemma truthy_data (data : gmap string jvalue) key : truthy (data !! key) = true → data ≠ ∅.
Proof. intros Hkey ->. by rewrite lookup_empty in Hkey. Qed.



Lemma login_state data st : (login data st).2 = st.
Proof. unfold login, raised. repeat (case_match; simpl; try done). Qed.

Lemma username_in_filter username table :
  username_in username table = false →
  List.filter (λ row, cell_is username (username_cell row)) table = [].
Proof.
  unfold username_in. induction table as [|row table IH]; simpl; [done|].
  destruct (cell_is username (username_cell row)); simpl; [done|]. exact IH.
Qed.


Lemma append_message_users new_message ok st :
  users (append_message new_message ok st).2 = users st.
Proof. unfold append_message, raised. repeat (case_match; simpl; try done). Qed.

(** No handler but [register] writes the credential file. *)
Lemma handle_users_same r st :
  (∀ data, r ≠ POST_register data) → users (handle r st).2 = users st.
Proof.
  intros Hr. destruct r as [data|data|now_stamp now_iso form|name| |now_iso data]; simpl.
  - by destruct (Hr data).
  - by rewrite login_state.
  - unfold upload_image, raised.
    repeat (case_match; simpl; rewrite ?append_message_users, ?check_users; try done).
  - unfold get_image. by case_match.
  - unfold get_messages, raised. by case_match.
  - unfold send_message, raised.
    repeat (case_match; simpl; rewrite ?append_message_users, ?check_users; try done).
Qed.

(** When the calls of the library go through, [append_message] stores the
    rows it read followed by the new one. *)
Lemma append_message_stored new_message ok st log :
  read_messages lib (messages st) = Some log →
  messages_to_csv lib (log ++ [new_message]) = true →
  append_message new_message ok st
  = (ok, {| users := users st; messages := Written (log ++ [new_message]);
            uploads := uploads st |}).
Proof. intros Hread Hwrite. unfold append_message. by rewrite Hread, Hwrite. Qed.

(** [append_message] answers [ok] only when it has stored the row. *)
Lemma append_message_ok new_message ok st :
  ok.2 = 200%Z →
  (append_message new_message ok st).1 = ok →
  ∃ log,
    read_messages lib (messages st) = Some log
    ∧ messages_to_csv lib (log ++ [new_message]) = true
    ∧ (append_message new_message ok st).2
      = {| users := users st; messages := Written (log ++ [new_message]);
           uploads := uploads st |}.
Proof.
  intros Hok. unfold append_message, raised.
  destruct (read_messages lib (messages st)) as [log|]; simpl.
  - destruct (messages_to_csv lib (log ++ [new_message])) eqn:Hwrite; simpl.
    + intros _. by exists log.
    + intros <-. done.
  - intros <-. done.
Qed.

Lemma credentials_username username password :
  credentials username password !! "username" = Some (JStr username).
Proof. unfold credentials. apply lookup_insert_eq. Qed.

Lemma credentials_password username password :
  credentials username password !! "password" = Some (JStr password).
Proof.
  unfold credentials. rewrite lookup_insert_ne by done. apply lookup_singleton_eq.
Qed.

Lemma text_message_lookups username message :
  text_message username message !! "username" = Some (JStr username)
  ∧ text_message username message !! "message" = Some (JStr message)
  ∧ text_message username message !! "type" = None.
Proof.
  unfold text_message. split; [apply lookup_insert_eq|]. split.
  - rewrite lookup_insert_ne by done. apply lookup_singleton_eq.
  - rewrite lookup_insert_ne by done. by apply lookup_singleton_ne.
Qed.

Lemma truthy_nonempty s : s ≠ EmptyString → truthy (Some (JStr s)) = true.
Proof. intros Hs. simpl. by destruct (String.eqb_spec s EmptyString). Qed.

(** ** Retention guard: claims C1 and C10 *)

(** A message with a username and a text, from a username that
    [read_csv] finds in the credential file, is stored when the library
    calls go through. *)
Lemma send_message_stored now_iso data st table log :
  truthy (data !! "username") = true →
  truthy (data !! "message") = true →
  read_users lib (users st) = Some table →
  username_in (str_value (data !! "username")) table = true →
  read_messages lib (messages (check_and_clear_data st)) = Some log →
  messages_to_csv lib (log ++ [text_row now_iso data]) = true →
  send_message now_iso data st
  = (jsonify (Success "message" "Message sent successfully"),
     {| users := users st;
        messages := Written (log ++ [text_row now_iso data]);
        uploads := uploads (check_and_clear_data st) |}).
Proof.
  intros Hu Hm Husers Hin Hread Hwrite. unfold send_message.
  rewrite bool_decide_eq_false_2 by by eapply truthy_data.
  rewrite Hu, Hm, Husers, Hin. simpl.
  rewrite (append_message_stored _ _ _ log Hread Hwrite). by rewrite check_users.
Qed.

(** An upload with a username and an allowed filename is stored when the
    library calls go through. *)
Lemma upload_image_stored now_stamp now_iso form file name st log :
  files_file form = Some file →
  form_username form = Some name →
  name ≠ EmptyString →
  allowed_file (filename file) = true →
  let stored := secure_filename lib (now_stamp +:+ "_" +:+ filename file) in
  file_save lib stored (content_length file) = Saved →
  read_messages lib (messages (check_and_clear_data st)) = Some log →
  messages_to_csv lib (log ++ [image_row now_iso name stored]) = true →
  upload_image now_stamp now_iso form st
  = (jsonify (Success "filename" stored),
     {| users := users st;
        messages := Written (log ++ [image_row now_iso name stored]);
        uploads := <[stored := content_length file]> (uploads (check_and_clear_data st)) |}).
Proof.
  intros Hfile Hname Hne Hext stored Hsave Hread Hwrite.
  assert (String.eqb (filename file) EmptyString = false) as Hfn.
  { apply String.eqb_neq. intros Hempty. by rewrite Hempty in Hext. }
  assert (String.eqb name EmptyString = false) as Hn by by apply String.eqb_neq.
  unfold upload_image. rewrite Hfile, Hname, Hext, Hfn. simpl. rewrite Hn. simpl.
  fold stored. rewrite Hsave.
  erewrite append_message_stored; [|exact Hread|exact Hwrite]. simpl.
  by rewrite check_users.
Qed.


(** C10.  The comparison with the ceiling is strict: a persisted state of
    exactly 400 * 1024 * 1024 bytes is left as it is by the check, message
    log and upload store included. *)
Theorem C10_check_at_ceiling st :
  get_data_size st = (400 * 1024 * 1024)%Z →
  check_and_clear_data st = st
  ∧ messages (check_and_clear_data st) = messages st
  ∧ uploads (check_and_clear_data st) = uploads st.
Proof.
  intros Hsize. rewrite check_within; [done|]. rewrite Hsize. done.
Qed.

(** ** Posting, registering, logging in: claims C2, C3 and C4 *)

Lemma send_message_unknown_user now_iso data st table :
  read_users lib (users st) = Some table →
  username_in (str_value (data !! "username")) table = false →
  (send_message now_iso data st).2 = st
  ∧ outcome_of (send_message now_iso data st).1 ≠ Succeeded
  ∧ (truthy (data !! "username") = true → truthy (data !! "message") = true →
     (send_message now_iso data st).1 = (Error "User not found", 401%Z)
     ∧ outcome_of (send_message now_iso data st).1 = UnknownUser).
Proof.
  intros Hread Hfresh. unfold send_message. rewrite Hread, Hfresh. simpl.
  case_bool_decide; simpl.
  - split; [done|]. split; [done|].
    intros Hu. subst data. by rewrite lookup_empty in Hu.
  - destruct (truthy (data !! "username")), (truthy (data !! "message")); simpl; done.
Qed.

(** C2.  A request to post a message whose username is not among the
    usernames that [read_csv] finds in the credential file is refused and
    changes nothing, so [GET /messages] answers afterwards as it did
    before; when the request carries a username and a message text and
    the credential file is read, the refusal is [UnknownUser]. *)
Theorem C2_unknown_user_rejected now_iso data st :
  (∀ table, read_users lib (users st) = Some table →
            username_in (str_value (data !! "username")) table = false) →
  let result := send_message now_iso data st in
  (messages result.2 = messages st ∧ result.2 = st)
  ∧ get_messages result.2 = get_messages st
  ∧ outcome_of result.1 ≠ Succeeded
  ∧ (truthy (data !! "username") = true → truthy (data !! "message") = true →
     is_Some (read_users lib (users st)) →
     result.1 = (Error "User not found", 401%Z)
     ∧ outcome_of result.1 = UnknownUser).
Proof.
  intros Hfresh result. subst result.
  destruct (read_users lib (users st)) as [table|] eqn:Hread.
  - destruct (send_message_unknown_user now_iso data st table Hread (Hfresh table eq_refl))
      as (Hst & Hout & Hkind).
    rewrite Hst. split; [done|]. split; [done|]. split; [done|]. auto.
  - assert ((send_message now_iso data st).2 = st
            ∧ outcome_of (send_message now_iso data st).1 ≠ Succeeded) as [Hst Hout].
    { unfold send_message, raised. rewrite Hread.
      repeat (case_match; simpl; try done). }
    rewrite Hst. split; [done|]. split; [done|]. split; [done|].
    intros _ _ [table Htable]. done.
Qed.

Lemma register_success data st :
  (register data st).1 = registered →
  ∃ table password_hash,
    data ≠ ∅
    ∧ truthy (data !! "username") = true ∧ truthy (data !! "password") = true
    ∧ read_users lib (users st) = Some table
    ∧ username_in (str_value (data !! "username")) table = false
    ∧ hash_password (str_value (data !! "password")) = Some password_hash
    ∧ (register data st).2
      = {| users := Written (table ++ [UserRow (CStr (str_value (data !! "username")))
                                               (CStr password_hash)]);
           messages := messages st;
           uploads := uploads st |}.
Proof.
  unfold register, registered, raised, jsonify.
  case_bool_decide as Hdata; simpl; [done|].
  destruct (truthy (data !! "username")); simpl; [|done].
  destruct (truthy (data !! "password")); simpl; [|done].
  destruct (read_users lib (users st)) as [table|]; simpl; [|done].
  destruct (username_in _ table) eqn:Hin; simpl; [done|].
  destruct (hash_password _) as [password_hash|]; simpl; [|done].
  destruct (users_to_csv lib _); simpl; [|done].
  intros _. by exists table, password_hash.
Qed.

Lemma register_stored data st table password_hash :
  truthy (data !! "username") = true →
  truthy (data !! "password") = true →
  read_users lib (users st) = Some table →
  username_in (str_value (data !! "username")) table = false →
  hash_password (str_value (data !! "password")) = Some password_hash →
  users_to_csv lib (table ++ [UserRow (CStr (str_value (data !! "username")))
                                      (CStr password_hash)]) = true →
  register data st
  = (registered,
     {| users := Written (table ++ [UserRow (CStr (str_value (data !! "username")))
                                            (CStr password_hash)]);
        messages := messages st;
        uploads := uploads st |}).
Proof.
  intros Hu Hp Hread Hfresh Hhash Hwrite. unfold register.
  rewrite bool_decide_eq_false_2 by by eapply truthy_data.
  by rewrite Hu, Hp, Hread, Hfresh, Hhash, Hwrite.
Qed.

(** C3, where the code departs from it.  The duplicate check of line 95
    looks for the username among the cells that [read_csv] makes of the
    credential file.  When the username that has just been registered is
    read back as something else than that text (pandas reads [123] back as
    a number), a second registration of the same username is accepted and
    a second row is written for it. *)
Theorem C3_reread_username_registered_again data data' st table password_hash :
  (register data st).1 = registered →
  data' !! "username" = data !! "username" →
  truthy (data' !! "password") = true →
  read_users lib (users (register data st).2) = Some table →
  username_in (str_value (data !! "username")) table = false →
  hash_password (str_value (data' !! "password")) = Some password_hash →
  users_to_csv lib (table ++ [UserRow (CStr (str_value (data !! "username")))
                                      (CStr password_hash)]) = true →
  let second := register data' (register data st).2 in
  second.1 = registered
  ∧ outcome_of second.1 ≠ DuplicateUsername
  ∧ users second.2
    = Written (table ++ [UserRow (CStr (str_value (data !! "username"))) (CStr password_hash)]).
Proof.
  intros Hreg Hsame Hp Hread Hfresh Hhash Hwrite second.
  apply register_success in Hreg as (_ & _ & _ & Hu & _).
  subst second. rewrite <-Hsame in Hfresh, Hwrite, Hu |- *.
  by rewrite (register_stored data' _ table password_hash).
Qed.

(** C4, where the code departs from it.  Line 126 selects the rows whose
    username cell, as [read_csv] makes it, equals the username of the
    request.  When the username that has just been registered is read back
    as something else than that text, the login with the very pair that
    was registered is refused with [InvalidCredentials]. *)
Theorem C4_reread_username_login_refused data st table :
  (register data st).1 = registered →
  read_users lib (users (register data st).2) = Some table →
  username_in (str_value (data !! "username")) table = false →
  (login data (register data st).2).1 = (Error "Invalid username or password", 401%Z)
  ∧ outcome_of (login data (register data st).2).1 = InvalidCredentials.
Proof.
  intros Hreg Hread Hfresh.
  apply register_success in Hreg as (_ & _ & Hdata & Hu & Hp & _).
  unfold login. rewrite bool_decide_eq_false_2 by done.
  rewrite Hu, Hp, Hread. simpl. by rewrite (username_in_filter _ _ Hfresh).
Qed.

(** ** Uploads: claims C5, C7 and C9 *)

Lemma upload_image_rejected now_stamp now_iso form file st :
  files_file form = Some file →
  allowed_file (filename file) = false →
  (upload_image now_stamp now_iso form st).2 = st
  ∧ outcome_of (upload_image now_stamp now_iso form st).1 ≠ Succeeded
  ∧ (upload_image now_stamp now_iso form st).1.2 = 400%Z
  ∧ (truthy_str (form_username form) = true → filename file ≠ EmptyString →
     (upload_image now_stamp now_iso form st).1 = (Error "File type not allowed", 400%Z)
     ∧ outcome_of (upload_image now_stamp now_iso form st).1 = DisallowedExtension).
Proof.
  intros Hfile Hext. unfold upload_image. rewrite Hfile, Hext, andb_false_r.
  destruct (truthy_str (form_username form)); simpl; [|done].
  destruct (String.eqb_spec (filename file) EmptyString); simpl; done.
Qed.

(** C5.  An upload whose filename has no extension on the allow-list
    (png, jpg, jpeg, gif, compared without regard to case) is refused
    with status 400, stores no blob and appends no message; when the
    request names a user and a file, the refusal is
    [DisallowedExtension]. *)
Theorem C5_disallowed_extension now_stamp now_iso form file st :
  files_file form = Some file →
  ¬ extension_allowed (filename file) →
  let result := upload_image now_stamp now_iso form st in
  (uploads result.2 = uploads st ∧ messages result.2 = messages st ∧ result.2 = st)
  ∧ outcome_of result.1 ≠ Succeeded
  ∧ result.1.2 = 400%Z
  ∧ (truthy_str (form_username form) = true → filename file ≠ EmptyString →
     result.1 = (Error "File type not allowed", 400%Z)
     ∧ outcome_of result.1 = DisallowedExtension).
Proof.
  intros Hfile Hext result.
  assert (allowed_file (filename file) = false) as Hcode.
  { destruct (allowed_file (filename file)) eqn:H; [|done].
    by apply allowed_file_spec in H. }
  destruct (upload_image_rejected now_stamp now_iso form file st Hfile Hcode)
    as (Hst & Hout & Hstatus & Hkind).
  subst result. rewrite Hst. done.
Qed.

(** When [file.save] raises, the upload is answered 500 after the
    retention check has run, and no row is written for it. *)
Lemma upload_image_save_raised now_stamp now_iso form file name st leftover :
  files_file form = Some file →
  form_username form = Some name →
  name ≠ EmptyString →
  allowed_file (filename file) = true →
  file_save lib (secure_filename lib (now_stamp +:+ "_" +:+ filename file))
            (content_length file) = SaveRaised leftover →
  (upload_image now_stamp now_iso form st).1 = (Raised, 500%Z)
  ∧ messages (upload_image now_stamp now_iso form st).2
    = messages (check_and_clear_data st).
Proof.
  intros Hfile Hname Hne Hext Hsave.
  assert (String.eqb (filename file) EmptyString = false) as Hfn.
  { apply String.eqb_neq. intros Hempty. by rewrite Hempty in Hext. }
  assert (String.eqb name EmptyString = false) as Hn by by apply String.eqb_neq.
  unfold upload_image. rewrite Hfile, Hname, Hext, Hfn. simpl. rewrite Hn. simpl.
  by rewrite Hsave.
Qed.

(** C7, as the code has it.  An upload that names a user and a file with
    an allowed extension, and whose blob and log row the library stores,
    succeeds: the blob is in the upload store and an image row under the
    given username is put after the rows of the log, whether or not that
    username is in the credential file; a text message from the same
    username, when [read_csv] does not find it there, is refused with
    [UnknownUser]. *)
Theorem C7_upload_skips_user_check now_stamp now_iso form file name st log :
  files_file form = Some file →
  form_username form = Some name →
  name ≠ EmptyString →
  extension_allowed (filename file) →
  let stored := secure_filename lib (now_stamp +:+ "_" +:+ filename file) in
  file_save lib stored (content_length file) = Saved →
  read_messages lib (messages (check_and_clear_data st)) = Some log →
  messages_to_csv lib (log ++ [image_row now_iso name stored]) = true →
  let result := upload_image now_stamp now_iso form st in
  result.1 = jsonify (Success "filename" stored)
  ∧ messages result.2 = Written (log ++ [image_row now_iso name stored])
  ∧ uploads result.2 !! stored = Some (content_length file)
  ∧ (∀ table,
       read_users lib (users st) = Some table →
       username_in name table = false →
       ∀ now data,
         data !! "username" = Some (JStr name) →
         truthy (data !! "message") = true →
         outcome_of (send_message now data st).1 = UnknownUser
         ∧ (send_message now data st).2 = st).
Proof.
  intros Hfile Hname Hne Hext stored Hsave Hread Hwrite result.
  apply allowed_file_spec in Hext.
  subst result.
  rewrite (upload_image_stored now_stamp now_iso form file name st log); try done.
  simpl. split; [done|]. split; [done|]. split; [apply lookup_insert_eq|].
  intros table Husers Hfresh now data Hu Hm.
  destruct (send_message_unknown_user now data st table Husers) as (Hst & _ & Hkind).
  { by rewrite Hu. }
  split; [|done]. apply Hkind; [|done]. rewrite Hu. simpl.
  by destruct (String.eqb_spec name EmptyString).
Qed.

(** C9.  A filename without any dot fails the file-type check: it has no
    extension, and an upload under such a name (for instance [png]) is
    refused as a disallowed file type and stores nothing. *)
Theorem C9_dotless_rejected filename_ :
  contains "." filename_ = false →
  allowed_file filename_ = false
  ∧ (∀ ext, ¬ has_extension filename_ ext)
  ∧ ∀ now_stamp now_iso form file st,
      files_file form = Some file →
      filename file = filename_ →
      (upload_image now_stamp now_iso form st).2 = st
      ∧ (truthy_str (form_username form) = true → filename_ ≠ EmptyString →
         (upload_image now_stamp now_iso form st).1 = (Error "File type not allowed", 400%Z)).
Proof.
  intros Hdot. split; [by apply allowed_file_dotless|].
  split; [intros ext; by apply dotless_no_extension|].
  intros now_stamp now_iso form file st Hfile <-.
  destruct (upload_image_rejected now_stamp now_iso form file st Hfile)
    as (Hst & _ & _ & Hkind); [by apply allowed_file_dotless|].
  split; [done|]. intros Hu Hne. by apply Hkind.
Qed.

(** ** Listing and status codes: claims C6 and C8 *)

(** C6.  When [read_csv] reads the message log, [GET /messages] answers
    200 with one record per row read, in the order of the rows: the [i]-th
    record repeats the timestamp, username and message of the [i]-th row,
    and its type is the row's type, or [text] where the row has none.  The
    log itself is not changed.  A message or an image that the library
    stores is put after the rows that were read, as the last row. *)
Theorem C6_get_messages_in_order st log :
  read_messages lib (messages st) = Some log →
  ∃ records,
    get_messages st = (jsonify (Records records), st)
    ∧ length records = length log
    ∧ (∀ i row,
         log !! i = Some row →
         ∃ record,
           records !! i = Some record
           ∧ timestamp record = timestamp_cell row
           ∧ username record = sender_cell row
           ∧ message record = message_cell row
           ∧ type record = match type_cell row with CNaN => CStr "text" | given => given end)
    ∧ (∀ now_iso data table earlier,
         truthy (data !! "username") = true →
         truthy (data !! "message") = true →
         read_users lib (users st) = Some table →
         username_in (str_value (data !! "username")) table = true →
         read_messages lib (messages (check_and_clear_data st)) = Some earlier →
         messages_to_csv lib (earlier ++ [text_row now_iso data]) = true →
         messages (send_message now_iso data st).2
         = Written (earlier ++ [text_row now_iso data]))
    ∧ (∀ now_stamp now_iso form file name earlier,
         files_file form = Some file →
         form_username form = Some name →
         name ≠ EmptyString →
         allowed_file (filename file) = true →
         let stored := secure_filename lib (now_stamp +:+ "_" +:+ filename file) in
         file_save lib stored (content_length file) = Saved →
         read_messages lib (messages (check_and_clear_data st)) = Some earlier →
         messages_to_csv lib (earlier ++ [image_row now_iso name stored]) = true →
         messages (upload_image now_stamp now_iso form st).2
         = Written (earlier ++ [image_row now_iso name stored])).
Proof.
  intros Hread. exists (map to_record log). split.
  { unfold get_messages. by rewrite Hread. }
  split; [apply length_map|]. split; [|split].
  - intros i row Hrow. exists (to_record row). split.
    + change (map to_record log) with (to_record <$> log).
      by rewrite list_lookup_fmap, Hrow.
    + by destruct row as [? ? ? []].
  - intros now_iso data table earlier Hu Hm Husers Hin Hearlier Hwrite.
    by rewrite (send_message_stored now_iso data st table earlier).
  - intros now_stamp now_iso form file name earlier Hfile Hname Hne Hext stored Hsave
      Hearlier Hwrite.
    by rewrite (upload_image_stored now_stamp now_iso form file name st earlier).
Qed.

Lemma append_message_status new_message ok st :
  ok.2 = status_in_code (outcome_of ok) →
  (append_message new_message ok st).1.2
  = status_in_code (outcome_of (append_message new_message ok st).1).
Proof.
  intros Hok. unfold append_message, raised. repeat (case_match; simpl; try done).
Qed.

Lemma handle_status r st :
  (handle r st).1.2 = status_in_code (outcome_of (handle r st).1).
Proof.
  destruct r as [data|data|now_stamp now_iso form|name| |now_iso data]; simpl.
  - unfold register, raised. repeat (case_match; simpl; try done).
  - unfold login, raised. repeat (case_match; simpl; try done).
  - unfold upload_image, raised.
    repeat (case_match; simpl; try done); by apply append_message_status.
  - unfold get_image. by case_match.
  - unfold get_messages, raised. by case_match.
  - unfold send_message, raised.
    repeat (case_match; simpl; try done); by apply append_message_status.
Qed.

(** C8, as the code has it.  Every handler returns the status of its
    outcome: 200 on success, 400 for a missing field, a duplicate
    username or a disallowed extension, and 401 for invalid credentials
    and for an unknown user; so [POST /messages] with a username and a
    message text from a username that [read_csv] does not find in the
    credential file answers 401. *)
Theorem C8_status_of_outcome r st :
  (handle r st).1.2 = status_in_code (outcome_of (handle r st).1)
  ∧ ((handle r st).1.2 = 401%Z
     ↔ outcome_of (handle r st).1 = InvalidCredentials
       ∨ outcome_of (handle r st).1 = UnknownUser)
  ∧ (outcome_of (handle r st).1 = Succeeded → (handle r st).1.2 = 200%Z)
  ∧ (∀ now_iso data table,
       r = POST_messages now_iso data →
       truthy (data !! "username") = true →
       truthy (data !! "message") = true →
       read_users lib (users st) = Some table →
       username_in (str_value (data !! "username")) table = false →
       outcome_of (handle r st).1 = UnknownUser ∧ (handle r st).1.2 = 401%Z).
Proof.
  pose proof (handle_status r st) as Hstatus.
  split; [done|]. split; [|split].
  - rewrite Hstatus. destruct (outcome_of (handle r st).1); simpl; split;
      try done; try (intros [?|?]; done); eauto.
  - rewrite Hstatus. by intros ->.
  - intros now_iso data table -> Hu Hm Hread Hfresh. simpl.
    destruct (send_message_unknown_user now_iso data st table Hread Hfresh)
      as (_ & _ & Hkind).
    destruct (Hkind Hu Hm) as [-> _]. done.
Qed.

(** ** Further properties of the handlers *)

Lemma append_message_cases new_message ok st :
  (append_message new_message ok st).1 = ok
  ∨ (append_message new_message ok st).1 = (Raised, 500%Z).
Proof. unfold append_message, raised. repeat (case_match; simpl; auto). Qed.

Lemma upload_image_accepted now_stamp now_iso form st stored :
  (upload_image now_stamp now_iso form st).1 = jsonify (Success "filename" stored) →
  ∃ file log,
    files_file form = Some file
    ∧ stored = secure_filename lib (now_stamp +:+ "_" +:+ filename file)
    ∧ (upload_image now_stamp now_iso form st).2
      = {| users := users st;
           messages := Written (log ++ [image_row now_iso (default EmptyString (form_username form))
                                                  stored]);
           uploads := <[stored := content_length file]> (uploads (check_and_clear_data st)) |}.
Proof.
  unfold upload_image, raised. destruct (files_file form) as [file|]; simpl; [|done].
  destruct (negb (truthy_str (form_username form))); simpl; [done|].
  destruct (String.eqb (filename file) EmptyString); simpl; [done|].
  destruct (allowed_file (filename file)); simpl; [|done].
  destruct (file_save lib _ _); simpl; [|done].
  match goal with |- context [append_message ?row ?ok ?s] =>
    pose proof (append_message_cases row ok s) as Hcases;
    pose proof (append_message_ok row ok s eq_refl) as Hstored end.
  intros Hok. destruct Hcases as [Hsame | Hraised]; [|by rewrite Hraised in Hok].
  destruct (Hstored Hsame) as (log & _ & _ & Hst).
  rewrite Hsame in Hok. injection Hok as <-.
  exists file, log. rewrite Hst. simpl. by rewrite check_users.
Qed.

(** X1.  The name that a successful upload returns is served by
    [GET /images/<name>] right afterwards, with the size of the uploaded
    file, whether or not the upload triggered a reclaim. *)
Theorem X1_uploaded_image_served now_stamp now_iso form st stored :
  (upload_image now_stamp now_iso form st).1 = jsonify (Success "filename" stored) →
  ∃ file,
    files_file form = Some file
    ∧ (get_image stored (upload_image now_stamp now_iso form st).2).1
      = jsonify (FileBody (content_length file)).
Proof.
  intros (file & log & Hfile & _ & Hst)%upload_image_accepted.
  exists file. split; [done|]. rewrite Hst. unfold get_image. simpl.
  by rewrite lookup_insert_eq.
Qed.

(** X2.  Once the check has found the persisted state over the ceiling,
    no image uploaded before is served any more: [GET /images/<name>]
    answers 500 for every name. *)
Theorem X2_images_gone_after_reclaim st name :
  (MAX_DATA_SIZE < get_data_size st)%Z →
  (get_image name (check_and_clear_data st)).1 = (Raised, 500%Z).
Proof.
  intros Hover. rewrite (check_over _ Hover). unfold get_image. simpl.
  by rewrite lookup_empty.
Qed.

Lemma handle_refused_same r st :
  (handle r st).1.2 = 400%Z ∨ (handle r st).1.2 = 401%Z → (handle r st).2 = st.
Proof.
  destruct r as [data|data|now_stamp now_iso form|name| |now_iso data]; simpl.
  - unfold register, raised. repeat (case_match; simpl; try done); by intros [|].
  - by rewrite login_state.
  - unfold upload_image, raised. repeat (case_match; simpl; try done); try by intros [|].
    match goal with |- context [append_message ?row ?ok ?s] =>
      destruct (append_message_cases row ok s) as [-> | ->] end; by intros [|].
  - unfold get_image. by case_match.
  - unfold get_messages, raised. by case_match.
  - unfold send_message, raised. repeat (case_match; simpl; try done); try by intros [|].
    match goal with |- context [append_message ?row ?ok ?s] =>
      destruct (append_message_cases row ok s) as [-> | ->] end; by intros [|].
Qed.

(** X3.  A request that is refused, with status 400 or 401, changes
    nothing of the persisted state, and [login], [get_image] and
    [get_messages] change nothing whatever they answer. *)
Theorem X3_refused_requests_write_nothing r st :
  (handle r st).1.2 = 400%Z ∨ (handle r st).1.2 = 401%Z →
  (handle r st).2 = st
  ∧ (∀ data st', (login data st').2 = st')
  ∧ (∀ name st', (get_image name st').2 = st')
  ∧ (∀ st', (get_messages st').2 = st').
Proof.
  intros Hstatus. split; [|split; [|split]].
  - by apply handle_refused_same.
  - intros data st'. apply login_state.
  - intros name st'. unfold get_image. by case_match.
  - intros st'. unfold get_messages, raised. by case_match.
Qed.

(** X4.  No request other than [POST /register] writes the credential
    file, and the retention check does not touch it: it is the same file
    after any sequence of requests none of which is a registration. *)
Theorem X4_only_register_writes_credentials rs st :
  (∀ r, (∀ data, r ≠ POST_register data) → users (handle r st).2 = users st)
  ∧ users (check_and_clear_data st) = users st
  ∧ (Forall (λ r, ∀ data, r ≠ POST_register data) rs → users (run rs st) = users st).
Proof.
  split; [|split].
  - intros r Hr. by apply handle_users_same.
  - apply check_users.
  - intros Hrs. revert st. induction Hrs as [|r rs Hr _ IH]; intros st; simpl; [done|].
    by rewrite IH, handle_users_same.
Qed.

(** X8.  Running the retention check twice is the same as running it
    once, also when what is left after a reclaim is still over the
    ceiling. *)
Theorem X8_check_idempotent st :
  check_and_clear_data (check_and_clear_data st) = check_and_clear_data st.
Proof.
  destruct (check_cases st) as [H | H]; [by rewrite !H|]. rewrite H.
  by destruct (check_cases {| users := users st; messages := Written []; uploads := ∅ |})
    as [-> | ->].
Qed.

(** X9.  The measured size counts every upload once: a file stored under
    a name that was free adds its size to the total, and after
    [clear_data] the total is the size of the credential table and of the
    empty message table alone. *)
Theorem X9_size_of_uploads st name size :
  uploads st !! name = None →
  get_data_size {| users := users st; messages := messages st;
                   uploads := <[name := size]> (uploads st) |}
  = (get_data_size st + size)%Z
  ∧ get_data_size (clear_data st).2
    = (users_csv_size lib (users st) + messages_csv_size lib (Written []))%Z.
Proof.
  intros Hfree. unfold get_data_size. simpl. split.
  - rewrite map_fold_insert_L; [lia| |done]. intros; lia.
  - rewrite unlink_all_listdir, map_fold_empty. lia.
Qed.

Lemma lower_char_dot c : Ascii.eqb (lower_char c) "." = Ascii.eqb c ".".
Proof. by destruct c as [[] [] [] [] [] [] [] []]. Qed.

Lemma lower_char_idem c : lower_char (lower_char c) = lower_char c.
Proof. by destruct c as [[] [] [] [] [] [] [] []]. Qed.

Lemma contains_dot_lower s : contains "." (lower s) = contains "." s.
Proof.
  induction s as [|c s IH]; simpl; [done|]. by rewrite lower_char_dot, IH.
Qed.

Lemma lower_idem s : lower (lower s) = lower s.
Proof.
  induction s as [|c s IH]; simpl; [done|]. by rewrite lower_char_idem, IH.
Qed.

Lemma allowed_file_by_extension stem ext :
  contains "." ext = false →
  allowed_file (stem +:+ "." +:+ ext) = bool_decide (lower ext ∈ ALLOWED_EXTENSIONS).
Proof.
  intros Hext.
  assert (cut_last "." (stem +:+ "." +:+ ext) = Some (stem, ext)) as Hcut.
  { by apply cut_last_Some. }
  assert (contains "." (stem +:+ "." +:+ ext) = true) as Hdot.
  { destruct (contains "." (stem +:+ "." +:+ ext)) eqn:Hc; [done|].
    apply cut_last_None in Hc. congruence. }
  unfold allowed_file, rsplit. by rewrite Hcut, Hdot.
Qed.

(** X10.  The file-type check looks at nothing but the text after the last
    dot of the filename, lowercased: the part before that dot and the case
    of the extension make no difference. *)
Theorem X10_only_the_last_extension_counts stem ext :
  contains "." ext = false →
  allowed_file (stem +:+ "." +:+ ext) = bool_decide (lower ext ∈ ALLOWED_EXTENSIONS)
  ∧ allowed_file (stem +:+ "." +:+ lower ext) = allowed_file (stem +:+ "." +:+ ext)
  ∧ ∀ stem', allowed_file (stem' +:+ "." +:+ ext) = allowed_file (stem +:+ "." +:+ ext).
Proof.
  intros Hext. split; [by apply allowed_file_by_extension|]. split.
  - rewrite !allowed_file_by_extension; [|done|by rewrite contains_dot_lower].
    by rewrite lower_idem.
  - intros stem'. by rewrite !allowed_file_by_extension.
Qed.

Lemma cell_is_true s c : cell_is s c = true ↔ c = CStr s.
Proof.
  destruct c as [s'| |t]; simpl; [|done..]. rewrite String.eqb_eq.
  split; [by intros ->|by intros [= ->]].
Qed.

Lemma filter_unique table row s :
  NoDup (username_cell <$> table) →
  row ∈ table →
  username_cell row = CStr s →
  List.filter (λ r, cell_is s (username_cell r)) table = [row].
Proof.
  intros Hnodup Hrow Hs. induction table as [|r table IH]; simpl.
  - by apply elem_of_nil in Hrow.
  - apply NoDup_cons in Hnodup as [Hr Hnodup].
    apply elem_of_cons in Hrow as [<-|Hrow].
    + rewrite Hs. simpl. rewrite String.eqb_refl. f_equal.
      apply username_in_filter. unfold username_in.
      destruct (existsb _ table) eqn:Hex; [|done].
      apply existsb_exists in Hex as (r' & Hin & Hr'%cell_is_true).
      destruct Hr. rewrite Hs, <-Hr'. apply list_elem_of_fmap_2. by apply list_elem_of_In.
    + destruct (cell_is s (username_cell r)) eqn:Hcell.
      * apply cell_is_true in Hcell. destruct Hr. rewrite Hcell, <-Hs.
        by apply list_elem_of_fmap_2.
      * by apply IH.
Qed.

(** X13.  When [read_csv] reads the credential file with no two rows of
    the same username, a login that carries a username and a password
    succeeds exactly when one of the rows read has that username and the
    digest of that password, both as texts. *)
Theorem X13_login_succeeds_iff_row data st table password_hash :
  read_users lib (users st) = Some table →
  NoDup (username_cell <$> table) →
  truthy (data !! "username") = true →
  truthy (data !! "password") = true →
  hash_password (str_value (data !! "password")) = Some password_hash →
  (login data st).1 = jsonify (Success "username" (str_value (data !! "username")))
  ↔ UserRow (CStr (str_value (data !! "username"))) (CStr password_hash) ∈ table.
Proof.
  intros Hread Hunique Hu Hp Hhash. unfold login.
  rewrite bool_decide_eq_false_2 by by eapply truthy_data.
  rewrite Hu, Hp, Hread. simpl. split.
  - destruct (List.filter _ table) as [|row rest] eqn:Hfilter; [done|].
    rewrite Hhash.
    destruct (cell_is password_hash (password_hash_cell row)) eqn:Hcell; simpl; [|done].
    intros _.
    assert (In row (List.filter
              (λ row, cell_is (str_value (data !! "username")) (username_cell row)) table))
      as [Hin Hname]%List.filter_In.
    { rewrite Hfilter. by left. }
    apply cell_is_true in Hname, Hcell.
    destruct row as [u h]. simpl in *. subst u h. by apply list_elem_of_In.
  - intros Hrow. rewrite (filter_unique _ _ _ Hunique Hrow eq_refl), Hhash. simpl.
    by rewrite String.eqb_refl.
Qed.

(** X14.  A message is accepted exactly when it carries a username and a
    text, [read_csv] reads the credential file and finds the username in
    it as a text, and, after the retention check, the log is read and
    written back with the new row. *)
Theorem X14_message_accepted_iff now_iso data st :
  (send_message now_iso data st).1 = jsonify (Success "message" "Message sent successfully")
  ↔ truthy (data !! "username") = true
    ∧ truthy (data !! "message") = true
    ∧ ∃ table log,
        read_users lib (users st) = Some table
        ∧ username_in (str_value (data !! "username")) table = true
        ∧ read_messages lib (messages (check_and_clear_data st)) = Some log
        ∧ messages_to_csv lib (log ++ [text_row now_iso data]) = true.
Proof.
  split.
  - unfold send_message, raised. case_bool_decide; simpl; [done|].
    destruct (truthy (data !! "username")); simpl; [|done].
    destruct (truthy (data !! "message")); simpl; [|done].
    destruct (read_users lib (users st)) as [table|]; simpl; [|done].
    destruct (username_in _ table) eqn:Hin; simpl; [|done].
    intros Hok.
    destruct (append_message_ok (text_row now_iso data)
                (jsonify (Success "message" "Message sent successfully"))
                (check_and_clear_data st) eq_refl Hok) as (log & Hread & Hwrite & _).
    split; [done|]. split; [done|]. by exists table, log.
  - intros (Hu & Hm & table & log & Hread & Hin & Hlog & Hwrite).
    by rewrite (send_message_stored now_iso data st table log).
Qed.

(** X15.  On a fresh server, for any non-empty username, password and
    message text that pandas writes and reads back as they are: after
    registering, the user logs in, posts the message, and [GET /messages]
    lists exactly that message, of type [text], under the server's
    timestamp. *)
Theorem X15_register_login_post_list name password text now_iso password_hash :
  name ≠ EmptyString → password ≠ EmptyString → text ≠ EmptyString →
  hash_password password = Some password_hash →
  let user := UserRow (CStr name) (CStr password_hash) in
  let posted := MessageRow (CStr now_iso) (CStr name) (CStr text) (CStr "text") in
  read_users lib (Written []) = Some [] →
  users_to_csv lib [user] = true →
  read_users lib (Written [user]) = Some [user] →
  read_messages lib (Written []) = Some [] →
  messages_to_csv lib [posted] = true →
  read_messages lib (Written [posted]) = Some [posted] →
  (login (credentials name password) (register (credentials name password) empty_state).2).1
  = jsonify (Success "username" name)
  ∧ (get_messages
       (run [ POST_register (credentials name password);
              POST_login (credentials name password);
              POST_messages now_iso (text_message name text) ]
            empty_state)).1
    = jsonify (Records [MessageRecord (CStr now_iso) (CStr name) (CStr text) (CStr "text")]).
Proof.
  intros Hname Hpassword Htext Hhash user posted Hr0 Hw1 Hr1 Hm0 Hmw Hm1.
  pose proof (truthy_nonempty _ Hname) as Hn.
  pose proof (truthy_nonempty _ Hpassword) as Hp.
  pose proof (truthy_nonempty _ Htext) as Ht.
  destruct (text_message_lookups name text) as (Hmu & Hmm & Hmt).
  set (st1 := {| users := Written [user]; messages := Written []; uploads := ∅ |}).
  assert (register (credentials name password) empty_state = (registered, st1)) as Hreg.
  { rewrite (register_stored _ _ [] password_hash);
      rewrite ?credentials_username, ?credentials_password; done. }
  assert (login (credentials name password) st1
          = (jsonify (Success "username" name), st1)) as Hlogin.
  { unfold login. rewrite bool_decide_eq_false_2 by apply insert_non_empty.
    rewrite credentials_username, credentials_password, Hn, Hp. simpl.
    rewrite Hr1. simpl. rewrite !String.eqb_refl. simpl. rewrite Hhash. simpl.
    by rewrite String.eqb_refl. }
  assert (check_and_clear_data st1 = st1) as Hcheck.
  { by destruct (check_cases st1) as [-> | ->]. }
  split.
  - rewrite Hreg. cbn [snd]. by rewrite Hlogin.
  - unfold run. cbn [foldl handle]. rewrite Hreg. cbn [snd]. rewrite Hlogin. cbn [snd].
    rewrite (send_message_stored now_iso (text_message name text) st1 [user] []).
    + unfold get_messages, text_row. simpl. rewrite Hmu, Hmm, Hmt. simpl.
      fold posted. by rewrite Hm1.
    + by rewrite Hmu.
    + by rewrite Hmm.
    + done.
    + rewrite Hmu. simpl. by rewrite String.eqb_refl.
    + by rewrite Hcheck.
    + unfold text_row. rewrite Hmu, Hmm, Hmt. done.
Qed.

(** X16.  A failed upload is not harmless.  The retention check runs before
    the file is saved: when the persisted state is over the ceiling and
    [file.save] raises, the upload is answered 500 and the message log and
    every image uploaded before are gone all the same. *)
Theorem X16_failed_upload_has_reclaimed now_stamp now_iso form file name st leftover :
  files_file form = Some file →
  form_username form = Some name →
  name ≠ EmptyString →
  allowed_file (filename file) = true →
  let stored := secure_filename lib (now_stamp +:+ "_" +:+ filename file) in
  file_save lib stored (content_length file) = SaveRaised leftover →
  (MAX_DATA_SIZE < get_data_size st)%Z →
  let result := upload_image now_stamp now_iso form st in
  result.1 = (Raised, 500%Z)
  ∧ messages result.2 = Written []
  ∧ users result.2 = users st
  ∧ ∀ other, other ≠ stored → uploads result.2 !! other = None.
Proof.
  intros Hfile Hname Hne Hext stored Hsave Hover result.
  assert (String.eqb (filename file) EmptyString = false) as Hfn.
  { apply String.eqb_neq. intros Hempty. by rewrite Hempty in Hext. }
  assert (String.eqb name EmptyString = false) as Hn by by apply String.eqb_neq.
  subst result. unfold upload_image. rewrite Hfile, Hname, Hext, Hfn. simpl. rewrite Hn. simpl.
  fold stored. rewrite Hsave, (check_over _ Hover). simpl.
  split; [done|]. split; [done|]. split; [done|].
  intros other Hother. destruct leftover as [size|]; [|apply lookup_empty].
  rewrite lookup_insert_ne by done. apply lookup_empty.
Qed.


End Backend.

(** ** Runs of the handlers with the sample library *)

Example sha256_constants :
  firstn 2 Sha256.K = [0x428a2f98; 0x71374491]%Z
  ∧ firstn 2 Sha256.H0 = [0x6a09e667; 0xbb67ae85]%Z.
Proof. vm_compute. split; reflexivity. Qed.

Example sha256_abc :
  Sha256.hexdigest "abc"
  = "ba7816bf8f01cfea414140de5dae2223b00361a396177a9cb410ff61f20015ad"%string.
Proof. vm_compute. reflexivity. Qed.

Example sha256_empty :
  Sha256.hexdigest EmptyString
  = "e3b0c44298fc1c149afbf4c8996fb92427ae41e4649b934ca495991b7852b855"%string.
Proof. vm_compute. reflexivity. Qed.

Example sha256_two_blocks :
  Sha256.hexdigest "aaaaaaaaaaaaaaaaaaaaaaaaaaaaaaaaaaaaaaaaaaaaaaaaaaaaaaaaaaaaaaaa"
  = "ffe054fe7ae0cb6dc65c3af9b61d5209f439851db43d0ba5997337df154668eb"%string.
Proof. vm_compute. reflexivity. Qed.

Example hash_password_secret :
  hash_password "secret"
  = Some "2bb80d537b1da3e38bd30361aa855686bde0eacd7162fef6a25fe97bf527a25b"%string.
Proof. vm_compute. reflexivity. Qed.

Example hash_password_surrogate : hash_password lone_surrogate = None.
Proof. vm_compute. reflexivity. Qed.

Example alice_state_reached :
  run sample_library session (register sample_library (credentials "alice" "secret") empty_state).2
  = alice_state.
Proof. vm_compute. reflexivity. Qed.

Example full_state_reached :
  run sample_library (session ++ [big_upload (400 * 1024 * 1024)])
      (register sample_library (credentials "alice" "secret") empty_state).2
  = full_state.
Proof. vm_compute. reflexivity. Qed.

Example full_state_size : get_data_size sample_library full_state = 419431688%Z.
Proof. vm_compute. reflexivity. Qed.

Example end_to_end :
  (handle sample_library GET_messages
     (run sample_library
        [ POST_register (credentials "alice" "secret");
          POST_login (credentials "alice" "secret");
          POST_messages "2024-05-01T10:00:00.000000" (text_message "alice" "hi") ]
        empty_state)).1
  = jsonify (Records [MessageRecord (CStr "2024-05-01T10:00:00.000000") (CStr "alice")
                                    (CStr "hi") (CStr "text")]).
Proof. vm_compute. reflexivity. Qed.

(** A type and a message that pandas takes for missing values. *)
Example missing_texts_listed :
  (handle sample_library GET_messages
     (run sample_library
        [ POST_messages "2024-05-01T10:06:00.000000" (typed_message "alice" "well" "NA");
          POST_messages "2024-05-01T10:07:00.000000" (text_message "alice" "NA") ]
        (register sample_library (credentials "alice" "secret") empty_state).2)).1
  = jsonify (Records [ MessageRecord (CStr "2024-05-01T10:06:00.000000") (CStr "alice")
                                     (CStr "well") (CStr "text");
                       MessageRecord (CStr "2024-05-01T10:07:00.000000") (CStr "alice")
                                     CNaN (CStr "text") ]).
Proof. vm_compute. reflexivity. Qed.

Example allowed_file_samples :
  allowed_file "cat.png" = true ∧ allowed_file "a.b.JpEg" = true
  ∧ allowed_file ".gif" = true ∧ allowed_file "notes.txt" = false
  ∧ allowed_file "gif." = false ∧ allowed_file "png" = false
  ∧ allowed_file "archive.png.zip" = false.
Proof. vm_compute. repeat split. Qed.

(** ** The claims on the sample requests *)


Lemma C10_brim_state_kept :
  get_data_size sample_library brim_state = (400 * 1024 * 1024)%Z
  ∧ check_and_clear_data sample_library brim_state = brim_state.
Proof.
  split; [vm_compute; reflexivity|].
  apply (C10_check_at_ceiling sample_library brim_state).
  vm_compute. reflexivity.
Defined.

Lemma C2_ghost_rejected :
  let result := send_message sample_library "2024-05-01T10:02:00.000000"
                  (text_message "ghost" "boo") alice_state in
  result.1 = (Error "User not found", 401%Z) ∧ result.2 = alice_state.
Proof.
  destruct (C2_unknown_user_rejected sample_library "2024-05-01T10:02:00.000000"
              (text_message "ghost" "boo") alice_state)
    as ((_ & Hstate) & _ & _ & Hkind).
  - intros table Hread. vm_compute in Hread. injection Hread as <-. vm_compute. reflexivity.
  - split; [|exact Hstate]. apply Hkind; [vm_compute; reflexivity..|]. eexists. reflexivity.
Defined.

(** The username [123] is registered twice on a fresh server. *)
Lemma C3_123_registered_twice :
  let second := register sample_library (credentials "123" "pw2")
                  (register sample_library (credentials "123" "pw") empty_state).2 in
  (register sample_library (credentials "123" "pw") empty_state).1 = registered
  ∧ second.1 = registered
  ∧ users second.2
    = Written ([UserRow (CNum "123") (CStr (Sha256.hexdigest "pw"))]
               ++ [UserRow (CStr (str_value (credentials "123" "pw" !! "username")))
                           (CStr (Sha256.hexdigest "pw2"))]).
Proof.
  intros second.
  assert ((register sample_library (credentials "123" "pw") empty_state).1 = registered)
    as Hfirst by (vm_compute; reflexivity).
  split; [exact Hfirst|].
  destruct (C3_reread_username_registered_again sample_library
              (credentials "123" "pw") (credentials "123" "pw2") empty_state
              [UserRow (CNum "123") (CStr (Sha256.hexdigest "pw"))]
              (Sha256.hexdigest "pw2"))
    as (Hsecond & _ & Husers).
  - exact Hfirst.
  - vm_compute. reflexivity.
  - vm_compute. reflexivity.
  - vm_compute. reflexivity.
  - vm_compute. reflexivity.
  - vm_compute. reflexivity.
  - vm_compute. reflexivity.
  - split; [exact Hsecond|exact Husers].
Defined.

(** The user registered as [123] with the password [pw] cannot log in. *)
Lemma C4_123_cannot_log_in :
  (register sample_library (credentials "123" "pw") empty_state).1 = registered
  ∧ (login sample_library (credentials "123" "pw")
       (register sample_library (credentials "123" "pw") empty_state).2).1
    = (Error "Invalid username or password", 401%Z).
Proof.
  assert ((register sample_library (credentials "123" "pw") empty_state).1 = registered)
    as Hfirst by (vm_compute; reflexivity).
  split; [exact Hfirst|].
  destruct (C4_reread_username_login_refused sample_library (credentials "123" "pw")
              empty_state [UserRow (CNum "123") (CStr (Sha256.hexdigest "pw"))])
    as [Hlogin _].
  - exact Hfirst.
  - vm_compute. reflexivity.
  - vm_compute. reflexivity.
  - exact Hlogin.
Defined.

Lemma C5_txt_rejected :
  let result := upload_image sample_library "1714557800.75" "2024-05-01T10:03:20.000000"
                  (upload_by "alice" "notes.txt" 12) alice_state in
  result.1 = (Error "File type not allowed", 400%Z) ∧ result.2 = alice_state.
Proof.
  destruct (C5_disallowed_extension sample_library "1714557800.75"
              "2024-05-01T10:03:20.000000" (upload_by "alice" "notes.txt" 12)
              {| filename := "notes.txt"; content_length := 12 |} alice_state)
    as ((_ & _ & Hstate) & _ & _ & Hkind).
  - reflexivity.
  - intros Hallowed%allowed_file_spec. vm_compute in Hallowed. discriminate.
  - split; [|exact Hstate]. apply Hkind; [vm_compute; reflexivity|discriminate].
Defined.

Lemma C6_alice_state_listed :
  ∃ records,
    get_messages sample_library alice_state = (jsonify (Records records), alice_state)
    ∧ length records = 2.
Proof.
  destruct (C6_get_messages_in_order sample_library alice_state
              [ MessageRow (CStr "2024-05-01T10:00:00.000000") (CStr "alice") (CStr "hi")
                           (CStr "text");
                image_row "2024-05-01T10:00:01.000000" "alice" "1714557600.5_cat.png" ])
    as (records & Hget & Hlength & _).
  - vm_compute. reflexivity.
  - exists records. split; [exact Hget|exact Hlength].
Defined.

Lemma C7_ghost_uploads :
  let result := upload_image sample_library "1714557800.75" "2024-05-01T10:03:20.000000"
                  (upload_by "ghost" "cat.PNG" 2048) alice_state in
  username_in "ghost" [UserRow (CStr "alice") (CStr (Sha256.hexdigest "secret"))] = false
  ∧ result.1 = jsonify (Success "filename" "1714557800.75_cat.PNG")
  ∧ uploads result.2 !! "1714557800.75_cat.PNG" = Some 2048%Z.
Proof.
  intros result. split; [vm_compute; reflexivity|].
  destruct (C7_upload_skips_user_check sample_library "1714557800.75"
              "2024-05-01T10:03:20.000000" (upload_by "ghost" "cat.PNG" 2048)
              {| filename := "cat.PNG"; content_length := 2048 |} "ghost" alice_state
              [ MessageRow (CStr "2024-05-01T10:00:00.000000") (CStr "alice") (CStr "hi")
                           (CStr "text");
                image_row "2024-05-01T10:00:01.000000" "alice" "1714557600.5_cat.png" ])
    as (Hbody & _ & Hblob & _).
  - reflexivity.
  - reflexivity.
  - discriminate.
  - apply allowed_file_spec. vm_compute. reflexivity.
  - vm_compute. reflexivity.
  - vm_compute. reflexivity.
  - vm_compute. reflexivity.
  - split.
    + etrans; [exact Hbody|]. vm_compute. reflexivity.
    + etrans; [exact Hblob|]. reflexivity.
Defined.

Lemma C9_png_rejected :
  allowed_file "png" = false
  ∧ (upload_image sample_library "1714557800.75" "2024-05-01T10:03:20.000000"
       (upload_by "alice" "png" 2048) alice_state).1
    = (Error "File type not allowed", 400%Z).
Proof.
  destruct (C9_dotless_rejected sample_library "png") as (Hcheck & _ & Hupload).
  - vm_compute. reflexivity.
  - split; [exact Hcheck|].
    destruct (Hupload "1714557800.75" "2024-05-01T10:03:20.000000"
                (upload_by "alice" "png" 2048) {| filename := "png"; content_length := 2048 |}
                alice_state) as [_ Hkind]; [reflexivity..|].
    apply Hkind; [vm_compute; reflexivity|discriminate].
Defined.

(** ** Where the code departs from the claims *)

(** C7 as it is worded does not hold: an upload with a username and an
    allowed extension is not always accepted.  A filename of 304 bytes is
    past what the file system takes for a name, [file.save] raises, and the
    upload is answered 500. *)
Lemma C7_long_name_refused :
  let result := upload_image sample_library "1714557800.75" "2024-05-01T10:03:20.000000"
                  (upload_by "ghost" long_name 2048) alice_state in
  allowed_file long_name = true
  ∧ result.1 = (Raised, 500%Z)
  ∧ outcome_of result.1 ≠ Succeeded
  ∧ messages result.2 = messages alice_state.
Proof.
  vm_compute. split; [reflexivity|]. split; [reflexivity|]. split; [discriminate|reflexivity].
Qed.

(** C8 as it is worded does not hold: a message from a username that is
    not registered is answered 401, where the specification's reading of
    [UnknownUser] as invalid client data gives 400. *)
Lemma C8_unknown_user_not_400 :
  let r := (handle sample_library
              (POST_messages "2024-05-01T10:02:00.000000" (text_message "ghost" "boo"))
              alice_state).1 in
  outcome_of r = UnknownUser
  ∧ r.2 = 401%Z
  ∧ r.2 ≠ status_in_spec (outcome_of r).
Proof. vm_compute. split; [reflexivity|]. split; [reflexivity|]. discriminate. Qed.

(** ** The further properties on the sample requests *)

Lemma X1_ghost_upload_served :
  (get_image "1714557800.75_cat.PNG"
     (upload_image sample_library "1714557800.75" "2024-05-01T10:03:20.000000"
        (upload_by "ghost" "cat.PNG" 2048) alice_state).2).1
  = jsonify (FileBody 2048).
Proof.
  destruct (X1_uploaded_image_served sample_library "1714557800.75"
              "2024-05-01T10:03:20.000000" (upload_by "ghost" "cat.PNG" 2048) alice_state
              "1714557800.75_cat.PNG") as (file & Hfile & Hget).
  - vm_compute. reflexivity.
  - injection Hfile as <-. exact Hget.
Defined.

Lemma X2_cat_gone_from_full_state :
  uploads full_state !! "1714557600.5_cat.png" = Some 1000%Z
  ∧ (get_image "1714557600.5_cat.png"
       (check_and_clear_data sample_library full_state)).1 = (Raised, 500%Z).
Proof.
  split; [vm_compute; reflexivity|].
  apply (X2_images_gone_after_reclaim sample_library full_state "1714557600.5_cat.png").
  vm_compute. reflexivity.
Defined.

Lemma X3_ghost_message_writes_nothing :
  (handle sample_library
     (POST_messages "2024-05-01T10:02:00.000000" (text_message "ghost" "boo")) alice_state).2
  = alice_state.
Proof.
  destruct (X3_refused_requests_write_nothing sample_library
              (POST_messages "2024-05-01T10:02:00.000000" (text_message "ghost" "boo"))
              alice_state) as [Hsame _].
  - right. vm_compute. reflexivity.
  - exact Hsame.
Defined.

Lemma X9_size_with_one_more_upload :
  get_data_size sample_library
    {| users := users alice_state; messages := messages alice_state;
       uploads := <["dog.gif" := 4096%Z]> (uploads alice_state) |}
  = (get_data_size sample_library alice_state + 4096)%Z.
Proof.
  destruct (X9_size_of_uploads sample_library alice_state "dog.gif" 4096) as [Hsize _].
  - vm_compute. reflexivity.
  - exact Hsize.
Defined.

Lemma X10_archive_tar_GIF :
  allowed_file "archive.tar.GIF" = true
  ∧ allowed_file "archive.tar.gif" = allowed_file "archive.tar.GIF"
  ∧ allowed_file "x.GIF" = allowed_file "archive.tar.GIF".
Proof.
  destruct (X10_only_the_last_extension_counts "archive.tar" "GIF") as (Hcheck & Hlower & Hstem).
  - vm_compute. reflexivity.
  - split; [etrans; [exact Hcheck|vm_compute; reflexivity]|].
    split; [exact Hlower|exact (Hstem "x"%string)].
Defined.

Lemma X13_alice_logs_in :
  (login sample_library (credentials "alice" "secret") alice_state).1
  = jsonify (Success "username" "alice").
Proof.
  destruct (X13_login_succeeds_iff_row sample_library (credentials "alice" "secret")
              alice_state [UserRow (CStr "alice") (CStr (Sha256.hexdigest "secret"))]
              (Sha256.hexdigest "secret")) as [_ Hlogin].
  - vm_compute. reflexivity.
  - vm_compute. apply NoDup_cons. split; [apply not_elem_of_nil|apply NoDup_nil_2].
  - vm_compute. reflexivity.
  - vm_compute. reflexivity.
  - vm_compute. reflexivity.
  - etrans; [apply Hlogin; left|]; vm_compute; reflexivity.
Defined.

Lemma X15_alice_says_hi :
  (get_messages sample_library
     (run sample_library
        [ POST_register (credentials "alice" "secret");
          POST_login (credentials "alice" "secret");
          POST_messages "2024-05-01T10:00:00.000000" (text_message "alice" "hi") ]
        empty_state)).1
  = jsonify (Records [MessageRecord (CStr "2024-05-01T10:00:00.000000") (CStr "alice")
                                    (CStr "hi") (CStr "text")]).
Proof.
  destruct (X15_register_login_post_list sample_library "alice" "secret" "hi"
              "2024-05-01T10:00:00.000000" (Sha256.hexdigest "secret")) as [_ Hlist].
  - discriminate.
  - discriminate.
  - discriminate.
  - vm_compute. reflexivity.
  - vm_compute. reflexivity.
  - vm_compute. reflexivity.
  - vm_compute. reflexivity.
  - vm_compute. reflexivity.
  - vm_compute. reflexivity.
  - vm_compute. reflexivity.
  - exact Hlist.
Defined.

Lemma X16_long_name_on_full_state :
  let result := upload_image sample_library "1714557800.75" "2024-05-01T10:03:20.000000"
                  (upload_by "alice" long_name 2048) full_state in
  result.1 = (Raised, 500%Z)
  ∧ messages result.2 = Written []
  ∧ uploads result.2 !! "1714557600.5_cat.png" = None.
Proof.
  destruct (X16_failed_upload_has_reclaimed sample_library "1714557800.75"
              "2024-05-01T10:03:20.000000" (upload_by "alice" long_name 2048)
              {| filename := long_name; content_length := 2048 |} "alice" full_state None)
    as (Hbody & Hlog & _ & Hgone).
  - reflexivity.
  - reflexivity.
  - discriminate.
  - vm_compute. reflexivity.
  - vm_compute. reflexivity.
  - vm_compute. reflexivity.
  - split; [exact Hbody|]. split; [exact Hlog|]. apply Hgone. vm_compute. discriminate.
Defined.

